(** * StudentsAnalyticsCalculator: classification, aggregation, period series

    A shallow embedding of
    [src/client/src/utils/StudentsAnalyticsCalculator.ts] and the proofs of
    the properties its specification states about it.

    Layout of the development:
    - [JSNumber]: the values of the TypeScript type [number] as far as the
      comparisons [>=] and [<] see them;
    - the data model (enrollments, class offerings, statistics, analytics
      entries, chart records);
    - the four components: [classifyStudent], [calculateClassStatistics],
      the period pipeline [generateAnalyticsForDiscipline] and
      [transformToChartData];
    - [ArrayHeap]: the same pipeline over a store of mutable arrays, where
      [Array.prototype.sort] works in place;
    - the theorems. *)

From Stdlib Require Import QArith ZArith List Sorted Permutation.
From Stdlib Require Import Ascii String DecimalString.
From Stdlib Require DecimalPos DecimalZ.
From stdpp Require Import base list strings gmap.

Local Open Scope Z_scope.

(** ** Numbers *)

Module JSNumber.

(** A value of the TypeScript type [number] is an IEEE 754 double. The
    source only compares grades with the literals [7.0], [3.0] and [5.0],
    and a comparison of doubles depends on nothing but the (extended) real
    value: it is false as soon as one side is [NaN], [-0] and [+0] are the
    same value, and otherwise it is the order of the reals with the two
    infinities at the ends. Every finite double is a rational, so [Fin]
    over [Q] covers all of them (and more: what is proved for every [Q] in
    particular holds for every double). *)
Inductive number : Type :=
| NaN
| NegInf
| Fin (q : Q)
| PosInf.

(** [a >= b] of JavaScript. *)
Definition geb (a b : number) : bool :=
  match a, b with
  | NaN, _ | _, NaN => false
  | PosInf, _ => true
  | _, NegInf => true
  | Fin x, Fin y => Qle_bool y x
  | NegInf, (Fin _ | PosInf) => false
  | Fin _, PosInf => false
  end.

(** [a < b] of JavaScript. *)
Definition ltb (a b : number) : bool :=
  match a, b with
  | NaN, _ | _, NaN => false
  | PosInf, _ => false
  | _, NegInf => false
  | Fin x, Fin y => negb (Qle_bool y x)
  | NegInf, (Fin _ | PosInf) => true
  | Fin _, PosInf => true
  end.

Definition is_nan (a : number) : bool :=
  match a with NaN => true | _ => false end.

(** A numeric literal with an integer value, such as [7.0]. *)
Definition lit (z : Z) : number := Fin (inject_Z z).

End JSNumber.

Import JSNumber.

(** ** Data model *)

(** [x ?? d]: the nullish-coalescing operator; [None] is an absent
    ([undefined] or [null]) value. *)
Definition nullish {A : Type} (x : option A) (d : A) : A :=
  match x with
  | Some v => v
  | None => d
  end.

Notation "x ?? d" := (nullish x d) (at level 45, left associativity).

(** [interface EnrollmentWithGrades]: the three optional fields the
    classifier reads from an enrollment. *)
Record Enrollment : Type := mkEnrollment {
  mediaPreFinal : option number;
  mediaPosFinal : option number;
  reprovadoPorFalta : option bool
}.

(** [type StudentCategory = keyof Omit<CategoryStatistics, 'totalStudents'>]:
    the five counter names. *)
Inductive StudentCategory : Type :=
| K_approvedByAverage
| K_failedByAverage
| K_approvedByGrade
| K_failedByGrade
| K_failedByAttendance.

(** [interface CategoryStatistics]. The counters are array lengths and
    counts of array elements, hence natural numbers. *)
Record CategoryStatistics : Type := mkStats {
  approvedByAverage : nat;
  failedByAverage : nat;
  approvedByGrade : nat;
  failedByGrade : nat;
  failedByAttendance : nat;
  totalStudents : nat
}.

(** ** Classifier *)

Definition classifyStudent (enrollment : Enrollment) : option StudentCategory :=
  let reprovadoPorFalta := reprovadoPorFalta enrollment ?? false in
  let mediaPosFinal := mediaPosFinal enrollment ?? lit 0 in
  let mediaPreFinal := mediaPreFinal enrollment ?? lit 0 in
  if reprovadoPorFalta then Some K_failedByAttendance
  else if geb mediaPreFinal (lit 7) then Some K_approvedByAverage
  else if geb mediaPreFinal (lit 3) && ltb mediaPreFinal (lit 7) then
    if geb mediaPosFinal (lit 5) then Some K_approvedByGrade
    else Some K_failedByGrade
  else Some K_failedByAverage.

(** The three values the decision rule works on, defaults applied. *)
Definition attendanceFlag (e : Enrollment) : bool := reprovadoPorFalta e ?? false.
Definition preFinalAverage (e : Enrollment) : number := mediaPreFinal e ?? lit 0.
Definition postFinalAverage (e : Enrollment) : number := mediaPosFinal e ?? lit 0.

(** ** Aggregator *)

(** [classObj.enrollments || []]: an array, even an empty one, is truthy, so
    only an absent collection is replaced. *)
Definition or_empty {A : Type} (x : option (list A)) : list A :=
  match x with
  | Some l => l
  | None => []
  end.

(** [stats[category]++]. *)
Definition increment (stats : CategoryStatistics) (category : StudentCategory)
  : CategoryStatistics :=
  let '(mkStats am fm ag fg fa n) := stats in
  match category with
  | K_approvedByAverage => mkStats (S am) fm ag fg fa n
  | K_failedByAverage => mkStats am (S fm) ag fg fa n
  | K_approvedByGrade => mkStats am fm (S ag) fg fa n
  | K_failedByGrade => mkStats am fm ag (S fg) fa n
  | K_failedByAttendance => mkStats am fm ag fg (S fa) n
  end.

(** The body of the [forEach] callback: one step on the [stats] object. *)
Definition tally (stats : CategoryStatistics) (enrollment : Enrollment)
  : CategoryStatistics :=
  match classifyStudent enrollment with
  | Some category => increment stats category
  | None => stats
  end.

(** Modelled from the spec: the type [Class] is imported from
    [../types/Class], which is not part of the sources at hand. These are the
    four fields the calculator reads; the specification gives [year] and
    [semester] as integers and the enrollments as a possibly absent ordered
    collection. An array is a list: it has no holes, as no array decoded
    from JSON has. *)
Module Class.
Record t : Type := mk {
  topic : string;
  year : Z;
  semester : Z;
  enrollments : option (list Enrollment)
}.
End Class.

Definition calculateClassStatistics (classObj : Class.t) : CategoryStatistics :=
  let enrollments := or_empty (Class.enrollments classObj) in
  let stats := {|
    approvedByAverage := 0;
    failedByAverage := 0;
    approvedByGrade := 0;
    failedByGrade := 0;
    failedByAttendance := 0;
    totalStudents := length enrollments
  |} in
  fold_left tally enrollments stats.

(** The sum of the five outcome counters. *)
Definition outcomes (stats : CategoryStatistics) : nat :=
  (approvedByAverage stats + failedByAverage stats + approvedByGrade stats
   + failedByGrade stats + failedByAttendance stats)%nat.

(** The loop of [calculateClassStatistics] over an arbitrary classifier,
    which may return [null]: it separates what the counters owe to the loop
    from what they owe to [classifyStudent]. *)
Section Aggregate.
Variable classify : Enrollment -> option StudentCategory.

Definition tally_with (stats : CategoryStatistics) (enrollment : Enrollment)
  : CategoryStatistics :=
  match classify enrollment with
  | Some category => increment stats category
  | None => stats
  end.

Definition aggregate_with (enrollments : list Enrollment) : CategoryStatistics :=
  fold_left tally_with enrollments (mkStats 0 0 0 0 0 (length enrollments)).
End Aggregate.

(** ** Period pipeline *)

(** [String.prototype.toLowerCase] on the ASCII range: the letters [A]-[Z]
    go to [a]-[z], every other code is left as it is. *)
Definition lower_ascii (c : ascii) : ascii :=
  let n := nat_of_ascii c in
  if ((65 <=? n) && (n <=? 90))%nat then ascii_of_nat (n + 32) else c.

Fixpoint toLowerCase (s : string) : string :=
  match s with
  | EmptyString => EmptyString
  | String c s' => String (lower_ascii c) (toLowerCase s')
  end.

(** The predicate of the [filter] call: [===] on two strings. *)
Definition sameDiscipline (discipline : string) (classObj : Class.t) : bool :=
  String.eqb (toLowerCase (Class.topic classObj)) (toLowerCase discipline).

Definition filterClassesByDiscipline (classes : list Class.t) (discipline : string)
  : list Class.t :=
  List.filter (sameDiscipline discipline) classes.

(** [Array.prototype.sort(comparefn)] on the contents of an array.
    ECMAScript requires the sort to be stable, and for a consistent
    comparison function that fixes the result: the one ordered arrangement
    that keeps elements comparing equal in their input order. Which
    algorithm produces it is the engine's business; here it is a stable
    insertion sort. An element [x] stands before [y] when
    [comparefn x y <= 0]. *)
Section ArraySort.
Context {A : Type}.
Variable comparefn : A -> A -> Z.

Fixpoint sort_insert (x : A) (l : list A) : list A :=
  match l with
  | [] => [x]
  | y :: l' =>
      if comparefn x y <=? 0 then x :: y :: l' else y :: sort_insert x l'
  end.

Definition array_sort (l : list A) : list A :=
  fold_right sort_insert [] l.
End ArraySort.

(** The comparison function of [sortClassesByPeriod]. *)
Definition comparePeriod (a b : Class.t) : Z :=
  if negb (Class.year a =? Class.year b) then Class.year a - Class.year b
  else Class.semester a - Class.semester b.

(** [[...classes].sort(...)]: on values the spread copy is the identity; the
    copy and the in-place sort are told apart in [ArrayHeap] below. *)
Definition sortClassesByPeriod (classes : list Class.t) : list Class.t :=
  array_sort comparePeriod classes.

(** [interface AnalyticsData]. *)
Module AnalyticsData.
Record t : Type := mk {
  discipline : string;
  periodLabel : string;
  year : Z;
  semester : Z;
  statistics : CategoryStatistics
}.
End AnalyticsData.

(** A number inside a template literal. For an integer below [10^21] in
    absolute value that is its decimal numeral, with a minus sign when
    negative. *)
Definition numberToString (z : Z) : string :=
  NilZero.string_of_int (Z.to_int z).

(** The callback of the [map] call in [generateAnalyticsForDiscipline]. *)
Definition toAnalyticsData (classObj : Class.t) : AnalyticsData.t := {|
  AnalyticsData.discipline := Class.topic classObj;
  AnalyticsData.periodLabel :=
    numberToString (Class.year classObj) ++ "." ++ numberToString (Class.semester classObj);
  AnalyticsData.year := Class.year classObj;
  AnalyticsData.semester := Class.semester classObj;
  AnalyticsData.statistics := calculateClassStatistics classObj
|}.

Definition generateAnalyticsForDiscipline (discipline : string) (allClasses : list Class.t)
  : list AnalyticsData.t :=
  let filteredClasses := filterClassesByDiscipline allClasses discipline in
  let sortedClasses := sortClassesByPeriod filteredClasses in
  map toAnalyticsData sortedClasses.

(** The offerings of one period, and the entries of one period. *)
Definition offeredIn (y s : Z) (classObj : Class.t) : bool :=
  (Class.year classObj =? y) && (Class.semester classObj =? s).

Definition inPeriod (y s : Z) (item : AnalyticsData.t) : bool :=
  (AnalyticsData.year item =? y) && (AnalyticsData.semester item =? s).

(** Chronological order: by year, then by semester within a year. *)
Definition chronological (a b : AnalyticsData.t) : Prop :=
  AnalyticsData.year a < AnalyticsData.year b
  \/ (AnalyticsData.year a = AnalyticsData.year b
      /\ AnalyticsData.semester a <= AnalyticsData.semester b).

(** ** Chart projector *)

(** A property value of a chart record: a string or a count. *)
Inductive value : Type :=
| VString (s : string)
| VNumber (n : nat).

(** [interface ChartDataPoint]. The property names are not identifiers, so a
    record is kept as the object literal builds it: its properties, name and
    value, in creation order. *)
Definition ChartDataPoint : Type := list (string * value).

(** [o[key]]. *)
Fixpoint get (key : string) (o : ChartDataPoint) : option value :=
  match o with
  | [] => None
  | (k, v) :: o' => if String.eqb k key then Some v else get key o'
  end.

(** [Object.keys(o)]. *)
Definition keys (o : ChartDataPoint) : list string := map fst o.

(** The callback of the [map] call in [transformToChartData]. *)
Definition toChartDataPoint (item : AnalyticsData.t) : ChartDataPoint :=
  let statistics := AnalyticsData.statistics item in
  [ ("period", VString (AnalyticsData.periodLabel item));
    ("APV. M", VNumber (approvedByAverage statistics));
    ("APV. N", VNumber (approvedByGrade statistics));
    ("REP. N", VNumber (failedByGrade statistics));
    ("REP. M", VNumber (failedByAverage statistics));
    ("REP. F", VNumber (failedByAttendance statistics)) ]%string.

Definition transformToChartData (analyticsData : list AnalyticsData.t)
  : list ChartDataPoint :=
  map toChartDataPoint analyticsData.

(** ** The pipeline over mutable arrays *)

(** In the source an array is an object in the store and
    [Array.prototype.sort] rearranges it in place, which every holder of the
    array sees. This module keeps that store: the offerings arrays live at
    locations, [filter] and the spread [[...a]] allocate, [sort] overwrites.
    The class objects themselves are only read, so they are stored by
    value. A computation fails ([None]) only on a location that holds no
    array, which no reference of a running program does. *)
Module ArrayHeap.

Definition loc : Type := positive.

Abbreviation heap := (gmap loc (list Class.t)).

Definition M (A : Type) : Type := heap -> option (A * heap).

#[global] Instance M_ret : MRet M := fun A a h => Some (a, h).

#[global] Instance M_bind : MBind M := fun A B k m h =>
  match m h with
  | Some (a, h') => k a h'
  | None => None
  end.

(** A new array object with the given contents. *)
Definition alloc (a : list Class.t) : M loc :=
  fun h => let r := fresh (dom h) in Some (r, <[r := a]> h).

Definition read (r : loc) : M (list Class.t) :=
  fun h =>
    match h !! r with
    | Some a => Some (a, h)
    | None => None
    end.

Definition write (r : loc) (a : list Class.t) : M unit :=
  fun h =>
    match h !! r with
    | Some _ => Some (tt, <[r := a]> h)
    | None => None
    end.

(** [a.filter(p)]: a new array. *)
Definition array_filter (p : Class.t -> bool) (r : loc) : M loc :=
  a ← read r; alloc (List.filter p a).

(** [[...a]]: a new array with the same elements. *)
Definition array_spread (r : loc) : M loc :=
  a ← read r; alloc a.

(** [a.sort(comparefn)]: sorts [a] itself and returns it. *)
Definition array_sort_in_place (comparefn : Class.t -> Class.t -> Z) (r : loc)
  : M loc :=
  a ← read r; _ ← write r (array_sort comparefn a); mret r.

(** [a.map(f)]: a new array, handed back by value since nothing else
    refers to it. *)
Definition array_map {B : Type} (f : Class.t -> B) (r : loc) : M (list B) :=
  a ← read r; mret (map f a).

Definition filterClassesByDiscipline (classes : loc) (discipline : string)
  : M loc :=
  array_filter (sameDiscipline discipline) classes.

Definition sortClassesByPeriod (classes : loc) : M loc :=
  copy ← array_spread classes;
  array_sort_in_place comparePeriod copy.

Definition generateAnalyticsForDiscipline (discipline : string) (allClasses : loc)
  : M (list AnalyticsData.t) :=
  filteredClasses ← filterClassesByDiscipline allClasses discipline;
  sortedClasses ← sortClassesByPeriod filteredClasses;
  array_map toAnalyticsData sortedClasses.

End ArrayHeap.

(** ** The example of the specification *)

Definition ex_offerings : list Class.t :=
  [ Class.mk "Math" 2023 2
      (Some [ mkEnrollment (Some (lit 8)) None None;
              mkEnrollment (Some (lit 5)) (Some (lit 6)) None;
              mkEnrollment None None (Some true) ]);
    Class.mk "Math" 2023 1 (Some []) ]%string.

(** ** Notions used to state further properties *)

Definition category_eqb (a b : StudentCategory) : bool :=
  match a, b with
  | K_approvedByAverage, K_approvedByAverage
  | K_failedByAverage, K_failedByAverage
  | K_approvedByGrade, K_approvedByGrade
  | K_failedByGrade, K_failedByGrade
  | K_failedByAttendance, K_failedByAttendance => true
  | _, _ => false
  end.

(** The enrollments the classifier puts in category [k], and their number. *)
Definition classifiedAs (k : StudentCategory) (e : Enrollment) : bool :=
  match classifyStudent e with
  | Some k' => category_eqb k' k
  | None => false
  end.

Definition countOf (k : StudentCategory) (l : list Enrollment) : nat :=
  length (List.filter (classifiedAs k) l).

(** Counter by counter sum of two statistics. *)
Definition addStats (a b : CategoryStatistics) : CategoryStatistics := {|
  approvedByAverage := approvedByAverage a + approvedByAverage b;
  failedByAverage := failedByAverage a + failedByAverage b;
  approvedByGrade := approvedByGrade a + approvedByGrade b;
  failedByGrade := failedByGrade a + failedByGrade b;
  failedByAttendance := failedByAttendance a + failedByAttendance b;
  totalStudents := totalStudents a + totalStudents b
|}.

(** The two categories that mean the student passed. *)
Definition approved (k : option StudentCategory) : bool :=
  match k with
  | Some K_approvedByAverage | Some K_approvedByGrade => true
  | _ => false
  end.

(** The count a chart record shows under [key]. *)
Definition countAt (key : string) (point : ChartDataPoint) : nat :=
  match get key point with
  | Some (VNumber n) => n
  | _ => 0%nat
  end.

(** The bars of a chart record, added up. *)
Definition barsTotal (point : ChartDataPoint) : nat :=
  (countAt "APV. M" point + countAt "APV. N" point + countAt "REP. N" point
   + countAt "REP. M" point + countAt "REP. F" point)%nat.


(** * Properties *)

(** ** Comparisons of numbers *)

Section NumberFacts.

(** Away from [NaN] the two comparisons are complementary. *)
Lemma ltb_negb_geb a b :
  is_nan a = false -> is_nan b = false -> ltb a b = negb (geb a b).
Proof. destruct a, b; simpl; intros; congruence. Qed.

(** [a < b] excludes [a >= b], [NaN] or not. *)
Lemma ltb_true_geb_false a b : ltb a b = true -> geb a b = false.
Proof.
  destruct a, b; simpl; try congruence.
  destruct (Qle_bool q0 q); simpl; congruence.
Qed.

(** [>=] against a literal is monotone in the literal. *)
Lemma geb_lit_mono a (m n : Z) :
  m <= n -> geb a (lit n) = true -> geb a (lit m) = true.
Proof.
  unfold lit. destruct a; simpl; try congruence.
  intros Hmn H. apply Qle_bool_iff in H. apply Qle_bool_iff.
  apply Qle_trans with (inject_Z n); [|exact H].
  rewrite <- Zle_Qle. exact Hmn.
Qed.

(** Below a literal, hence not above any larger one. *)
Lemma ltb_lit_geb_false a (m n : Z) :
  m <= n -> ltb a (lit m) = true -> geb a (lit n) = false.
Proof.
  intros Hmn Hlt. apply ltb_true_geb_false in Hlt.
  destruct (geb a (lit n)) eqn:Hge; [|reflexivity].
  apply (geb_lit_mono a m n Hmn) in Hge. congruence.
Qed.

End NumberFacts.

(** ** Classifier *)

Section Classifier.

(** The classifier never returns [null]. *)
Lemma classifyStudent_total e : exists c, classifyStudent e = Some c.
Proof.
  unfold classifyStudent.
  repeat match goal with |- context [if ?b then _ else _] => destruct b end;
    eauto.
Qed.

Lemma classify_attendance e :
  attendanceFlag e = true -> classifyStudent e = Some K_failedByAttendance.
Proof. unfold attendanceFlag, classifyStudent. intros ->. reflexivity. Qed.

Lemma classify_direct_pass e :
  attendanceFlag e = false -> geb (preFinalAverage e) (lit 7) = true ->
  classifyStudent e = Some K_approvedByAverage.
Proof.
  unfold attendanceFlag, preFinalAverage, classifyStudent.
  intros -> ->. reflexivity.
Qed.

(** In the remedial band the post-final average decides. *)
Lemma classify_band e :
  attendanceFlag e = false ->
  geb (preFinalAverage e) (lit 3) = true ->
  ltb (preFinalAverage e) (lit 7) = true ->
  classifyStudent e =
    Some (if geb (postFinalAverage e) (lit 5) then K_approvedByGrade
          else K_failedByGrade).
Proof.
  unfold attendanceFlag, preFinalAverage, postFinalAverage, classifyStudent.
  intros -> H3 H7. rewrite (ltb_true_geb_false _ _ H7), H3, H7. simpl.
  destruct (geb _ (lit 5)); reflexivity.
Qed.

(** When neither grade guard fires the last branch is taken; a [NaN]
    average ends here too. *)
Lemma classify_otherwise e :
  attendanceFlag e = false ->
  geb (preFinalAverage e) (lit 7) = false ->
  geb (preFinalAverage e) (lit 3) && ltb (preFinalAverage e) (lit 7) = false ->
  classifyStudent e = Some K_failedByAverage.
Proof.
  unfold attendanceFlag, preFinalAverage, classifyStudent.
  intros -> -> ->. reflexivity.
Qed.

Lemma classify_low e :
  attendanceFlag e = false -> ltb (preFinalAverage e) (lit 3) = true ->
  classifyStudent e = Some K_failedByAverage.
Proof.
  intros Ha Hlt. apply classify_otherwise; [exact Ha| |].
  - apply (ltb_lit_geb_false _ 3 7); [lia | exact Hlt].
  - rewrite (ltb_true_geb_false _ _ Hlt). reflexivity.
Qed.

(** For an average that is a number, "otherwise" is exactly [< 3.0]. *)
Lemma otherwise_iff_low (a : number) :
  is_nan a = false ->
  (geb a (lit 7) = false /\ geb a (lit 3) && ltb a (lit 7) = false)
  <-> ltb a (lit 3) = true.
Proof.
  intros Hn. split.
  - intros [H7 H]. rewrite ltb_negb_geb in * by (exact Hn || reflexivity).
    rewrite H7 in H. simpl in H. rewrite andb_true_r in H. rewrite H. reflexivity.
  - intros Hlt. split.
    + apply (ltb_lit_geb_false _ 3 7); [lia | exact Hlt].
    + rewrite (ltb_true_geb_false _ _ Hlt). reflexivity.
Qed.

(** C1. Every enrollment gets exactly one category, chosen by the first rule
    that matches: the attendance flag gives failedByAttendance; otherwise a
    pre-final average [>= 7.0] gives approvedByAverage; otherwise, in the
    band [3.0 <= pre < 7.0], a post-final average [>= 5.0] gives
    approvedByGrade and one [< 5.0] gives failedByGrade; otherwise, and so
    for every pre-final average [< 3.0], failedByAverage. At the boundaries:
    [7.0] is approvedByAverage, [3.0] is in the band, and a set flag wins
    over any grades. *)
Theorem classifyStudent_first_match :
  forall e : Enrollment,
    let att := attendanceFlag e in
    let pre := preFinalAverage e in
    let post := postFinalAverage e in
    (exists! c, classifyStudent e = Some c) /\
    (att = true -> classifyStudent e = Some K_failedByAttendance) /\
    (att = false -> geb pre (lit 7) = true ->
       classifyStudent e = Some K_approvedByAverage) /\
    (att = false -> geb pre (lit 3) = true -> ltb pre (lit 7) = true ->
       geb post (lit 5) = true -> classifyStudent e = Some K_approvedByGrade) /\
    (att = false -> geb pre (lit 3) = true -> ltb pre (lit 7) = true ->
       ltb post (lit 5) = true -> classifyStudent e = Some K_failedByGrade) /\
    (att = false -> geb pre (lit 7) = false ->
       geb pre (lit 3) && ltb pre (lit 7) = false ->
       classifyStudent e = Some K_failedByAverage) /\
    (att = false -> ltb pre (lit 3) = true ->
       classifyStudent e = Some K_failedByAverage) /\
    (att = false -> pre = lit 7 -> classifyStudent e = Some K_approvedByAverage) /\
    (att = false -> pre = lit 3 ->
       classifyStudent e =
         Some (if geb post (lit 5) then K_approvedByGrade else K_failedByGrade)).
Proof.
  intros e att pre post. subst att pre post.
  split; [|repeat split].
  - destruct (classifyStudent_total e) as [c Hc].
    exists c. split; [exact Hc | intros c' Hc'; congruence].
  - apply classify_attendance.
  - apply classify_direct_pass.
  - intros Ha H3 H7 H5. rewrite classify_band, H5 by assumption. reflexivity.
  - intros Ha H3 H7 H5. rewrite classify_band by assumption.
    rewrite (ltb_true_geb_false _ _ H5). reflexivity.
  - apply classify_otherwise.
  - apply classify_low.
  - intros Ha Hp. apply classify_direct_pass; [exact Ha|]. rewrite Hp. reflexivity.
  - intros Ha Hp. apply classify_band; [exact Ha| |]; rewrite Hp; reflexivity.
Qed.

Lemma classifyStudent_first_match_witness :
  classifyStudent (mkEnrollment (Some (lit 5)) (Some (Fin (9 # 2))) None)
  = Some K_failedByGrade.
Proof.
  destruct (classifyStudent_first_match
              (mkEnrollment (Some (lit 5)) (Some (Fin (9 # 2))) None))
    as (_ & _ & _ & _ & Hband & _).
  apply Hband; reflexivity.
Defined.

(** The rule at the boundary values the specification lists. *)
Example classify_boundaries :
  classifyStudent (mkEnrollment (Some (lit 7)) None None) = Some K_approvedByAverage
  /\ classifyStudent (mkEnrollment (Some (Fin (6999 # 1000))) (Some (lit 5)) None)
     = Some K_approvedByGrade
  /\ classifyStudent (mkEnrollment (Some (lit 3)) (Some (Fin (4999 # 1000))) None)
     = Some K_failedByGrade
  /\ classifyStudent (mkEnrollment (Some (Fin (2999 # 1000))) None None)
     = Some K_failedByAverage
  /\ classifyStudent (mkEnrollment (Some (lit 9)) None (Some true))
     = Some K_failedByAttendance
  /\ classifyStudent (mkEnrollment (Some NaN) (Some (lit 9)) None)
     = Some K_failedByAverage.
Proof. repeat split. Qed.

(** C6. An absent field counts as [0], [0] or [false]: classification is the
    same as with the default written out, one field at a time and all at
    once; with all three absent the result is failedByAverage. *)
Theorem classifyStudent_defaults :
  forall (pre post : option number) (att : option bool),
    classifyStudent (mkEnrollment None post att)
      = classifyStudent (mkEnrollment (Some (lit 0)) post att)
    /\ classifyStudent (mkEnrollment pre None att)
      = classifyStudent (mkEnrollment pre (Some (lit 0)) att)
    /\ classifyStudent (mkEnrollment pre post None)
      = classifyStudent (mkEnrollment pre post (Some false))
    /\ classifyStudent (mkEnrollment pre post att)
      = classifyStudent
          (mkEnrollment (Some (pre ?? lit 0)) (Some (post ?? lit 0)) (Some (att ?? false)))
    /\ classifyStudent (mkEnrollment None None None) = Some K_failedByAverage.
Proof. intros pre post att. repeat split. Qed.

End Classifier.

(** ** Aggregator *)

Section Aggregator.

Lemma increment_total stats category :
  totalStudents (increment stats category) = totalStudents stats.
Proof. destruct stats, category; reflexivity. Qed.

Lemma increment_outcomes stats category :
  outcomes (increment stats category) = S (outcomes stats).
Proof. destruct stats, category; unfold outcomes; simpl; lia. Qed.

Section AnyClassifier.
Variable classify : Enrollment -> option StudentCategory.

(** The loop never touches [totalStudents]. *)
Lemma fold_tally_total (l : list Enrollment) stats :
  totalStudents (fold_left (tally_with classify) l stats) = totalStudents stats.
Proof.
  revert stats. induction l as [|e l IH]; intros stats; simpl; [reflexivity|].
  rewrite IH. unfold tally_with. destruct (classify e); [|reflexivity].
  apply increment_total.
Qed.

(** Each enrollment adds at most one to the outcome counters. *)
Lemma fold_tally_outcomes_le (l : list Enrollment) stats :
  (outcomes (fold_left (tally_with classify) l stats) <= outcomes stats + length l)%nat.
Proof.
  revert stats. induction l as [|e l IH]; intros stats; simpl; [lia|].
  etransitivity; [apply IH|].
  unfold tally_with. destruct (classify e); rewrite ?increment_outcomes; lia.
Qed.

(** Whatever the classifier, [totalStudents] is the length and bounds the
    outcome counters. *)
Lemma aggregate_with_bound (l : list Enrollment) :
  totalStudents (aggregate_with classify l) = length l
  /\ (outcomes (aggregate_with classify l) <= length l)%nat.
Proof.
  unfold aggregate_with. split.
  - apply fold_tally_total.
  - apply (fold_tally_outcomes_le l (mkStats 0 0 0 0 0 (length l))).
Qed.

(** With a classifier that always answers, each enrollment adds exactly one. *)
Lemma fold_tally_outcomes_eq (l : list Enrollment) stats :
  (forall e, exists c, classify e = Some c) ->
  outcomes (fold_left (tally_with classify) l stats) = (outcomes stats + length l)%nat.
Proof.
  intros Htot. revert stats. induction l as [|e l IH]; intros stats; simpl; [lia|].
  rewrite IH. unfold tally_with. destruct (Htot e) as [c ->].
  rewrite increment_outcomes. lia.
Qed.

End AnyClassifier.

(** A classifier that never answers leaves every outcome counter at zero
    while [totalStudents] still counts the enrollments. *)
Example aggregate_with_silent :
  aggregate_with (fun _ => None)
    [mkEnrollment None None None; mkEnrollment None None None]
  = mkStats 0 0 0 0 0 2.
Proof. reflexivity. Qed.

Lemma calculateClassStatistics_aggregate classObj :
  calculateClassStatistics classObj
  = aggregate_with classifyStudent (or_empty (Class.enrollments classObj)).
Proof. reflexivity. Qed.

(** C2. [totalStudents] is the number of enrollments of the offering, the
    five outcome counters sum to at most that, and, the classifier being
    total, to exactly that. *)
Theorem calculateClassStatistics_counts :
  forall classObj : Class.t,
    let stats := calculateClassStatistics classObj in
    totalStudents stats = length (or_empty (Class.enrollments classObj))
    /\ (outcomes stats <= totalStudents stats)%nat
    /\ outcomes stats = totalStudents stats.
Proof.
  intros classObj stats. subst stats.
  rewrite calculateClassStatistics_aggregate.
  destruct (aggregate_with_bound classifyStudent (or_empty (Class.enrollments classObj)))
    as [Htot Hle].
  assert (Heq : outcomes (aggregate_with classifyStudent (or_empty (Class.enrollments classObj)))
                = length (or_empty (Class.enrollments classObj))).
  { unfold aggregate_with.
    rewrite fold_tally_outcomes_eq by apply classifyStudent_total.
    reflexivity. }
  rewrite Htot. repeat split; lia.
Qed.

(** C7. An offering with no enrollments, or with no enrollments collection
    at all, gets the all-zero statistics: a value like any other. *)
Theorem calculateClassStatistics_empty :
  forall (topic : string) (year semester : Z),
    calculateClassStatistics (Class.mk topic year semester (Some []))
      = mkStats 0 0 0 0 0 0
    /\ calculateClassStatistics (Class.mk topic year semester None)
      = mkStats 0 0 0 0 0 0
    /\ AnalyticsData.statistics (toAnalyticsData (Class.mk topic year semester None))
      = mkStats 0 0 0 0 0 0.
Proof. intros. repeat split. Qed.

End Aggregator.

(** ** Sorting *)

Section ArraySortFacts.
Context {A : Type}.
Variable comparefn : A -> A -> Z.

Lemma sort_insert_perm x l : Permutation (sort_insert comparefn x l) (x :: l).
Proof.
  induction l as [|y l IH]; simpl; [reflexivity|].
  destruct (comparefn x y <=? 0); [reflexivity|].
  rewrite IH. apply perm_swap.
Qed.

(** The sort rearranges: nothing is lost, added or duplicated. *)
Lemma array_sort_perm l : Permutation (array_sort comparefn l) l.
Proof.
  induction l as [|x l IH]; simpl; [reflexivity|].
  rewrite sort_insert_perm. apply perm_skip, IH.
Qed.

Lemma array_sort_length l : length (array_sort comparefn l) = length l.
Proof. apply Permutation_length, array_sort_perm. Qed.

(** Stability. Take any group [p] of elements none of which has to stand
    after another of the group (such as the elements comparing equal to a
    given one): the sort leaves the group in its input order. *)
Section Stable.
Variable p : A -> bool.
Hypothesis p_tied : forall a b, p a = true -> p b = true -> comparefn a b <= 0.

Lemma sort_insert_filter x l :
  List.filter p (sort_insert comparefn x l) = List.filter p (x :: l).
Proof.
  induction l as [|y l IH]; [reflexivity|].
  cbn [sort_insert]. destruct (comparefn x y <=? 0) eqn:Hxy; [reflexivity|].
  apply Z.leb_gt in Hxy.
  cbn [List.filter] in *. rewrite IH.
  destruct (p x) eqn:Hx, (p y) eqn:Hy; try reflexivity.
  specialize (p_tied x y Hx Hy). lia.
Qed.

Lemma array_sort_stable l :
  List.filter p (array_sort comparefn l) = List.filter p l.
Proof.
  induction l as [|x l IH]; [reflexivity|].
  cbn [array_sort fold_right]. rewrite sort_insert_filter.
  cbn [List.filter]. fold (array_sort comparefn l). rewrite IH. reflexivity.
Qed.
End Stable.

(** Order. The comparison function has to be consistent: of two elements
    one may stand first, and "may stand before" is transitive. *)
Section Ordered.
Hypothesis comparefn_total : forall a b, 0 < comparefn a b -> comparefn b a <= 0.
Hypothesis comparefn_trans :
  forall a b c, comparefn a b <= 0 -> comparefn b c <= 0 -> comparefn a c <= 0.

Lemma sort_insert_sorted x l :
  StronglySorted (fun a b => comparefn a b <= 0) l ->
  StronglySorted (fun a b => comparefn a b <= 0) (sort_insert comparefn x l).
Proof.
  induction l as [|y l IH]; intros Hs; simpl.
  - repeat constructor.
  - apply StronglySorted_inv in Hs as [Hl Hy].
    destruct (comparefn x y <=? 0) eqn:Hxy.
    + apply Z.leb_le in Hxy. constructor; [constructor; assumption|].
      constructor; [exact Hxy|].
      apply List.Forall_forall. intros z Hz.
      apply (comparefn_trans x y z Hxy).
      revert z Hz. apply List.Forall_forall, Hy.
    + apply Z.leb_gt in Hxy. constructor; [apply IH, Hl|].
      apply List.Forall_forall. intros z Hz.
      apply (Permutation_in _ (sort_insert_perm x l)) in Hz.
      destruct Hz as [<-|Hz].
      * apply comparefn_total, Hxy.
      * revert z Hz. apply List.Forall_forall, Hy.
Qed.

Lemma array_sort_sorted l :
  StronglySorted (fun a b => comparefn a b <= 0) (array_sort comparefn l).
Proof.
  induction l as [|x l IH]; simpl; [constructor|].
  apply sort_insert_sorted, IH.
Qed.
End Ordered.

End ArraySortFacts.

(** A sorted list stays sorted under a map that respects the orders. *)
Lemma StronglySorted_map {A B : Type} (R : A -> A -> Prop) (R' : B -> B -> Prop)
    (f : A -> B) (l : list A) :
  (forall a b, R a b -> R' (f a) (f b)) ->
  StronglySorted R l -> StronglySorted R' (map f l).
Proof.
  intros Hf. induction 1 as [|a l Hl IH Ha]; simpl; constructor.
  - exact IH.
  - apply List.Forall_forall. intros b Hb. apply in_map_iff in Hb as (a' & <- & Ha').
    apply Hf. revert a' Ha'. apply List.Forall_forall, Ha.
Qed.

(** ** Period pipeline *)

Section PeriodPipeline.

(** What the comparison function of [sortClassesByPeriod] means. *)
Lemma comparePeriod_le a b :
  comparePeriod a b <= 0
  <-> Class.year a < Class.year b
      \/ (Class.year a = Class.year b /\ Class.semester a <= Class.semester b).
Proof.
  unfold comparePeriod.
  destruct (Class.year a =? Class.year b) eqn:Hy; simpl.
  - apply Z.eqb_eq in Hy. lia.
  - apply Z.eqb_neq in Hy. lia.
Qed.

(** It is a consistent comparison function. *)
Lemma comparePeriod_antisym a b :
  Z.sgn (comparePeriod b a) = - Z.sgn (comparePeriod a b).
Proof.
  unfold comparePeriod. rewrite (Z.eqb_sym (Class.year b)).
  destruct (Class.year a =? Class.year b); simpl; lia.
Qed.

Lemma comparePeriod_total a b : 0 < comparePeriod a b -> comparePeriod b a <= 0.
Proof. pose proof (comparePeriod_antisym a b). lia. Qed.

Lemma comparePeriod_trans a b c :
  comparePeriod a b <= 0 -> comparePeriod b c <= 0 -> comparePeriod a c <= 0.
Proof. rewrite !comparePeriod_le. lia. Qed.

Lemma comparePeriod_tied y s a b :
  offeredIn y s a = true -> offeredIn y s b = true -> comparePeriod a b <= 0.
Proof.
  unfold offeredIn. rewrite !andb_true_iff, !Z.eqb_eq, comparePeriod_le. lia.
Qed.

Lemma sortClassesByPeriod_perm classes :
  Permutation (sortClassesByPeriod classes) classes.
Proof. apply array_sort_perm. Qed.

Lemma sortClassesByPeriod_sorted classes :
  StronglySorted (fun a b => comparePeriod a b <= 0) (sortClassesByPeriod classes).
Proof.
  apply array_sort_sorted.
  - apply comparePeriod_total.
  - apply comparePeriod_trans.
Qed.

Lemma sortClassesByPeriod_stable y s classes :
  List.filter (offeredIn y s) (sortClassesByPeriod classes)
  = List.filter (offeredIn y s) classes.
Proof. apply array_sort_stable, comparePeriod_tied. Qed.

Lemma sameDiscipline_spec discipline classObj :
  sameDiscipline discipline classObj = true
  <-> toLowerCase (Class.topic classObj) = toLowerCase discipline.
Proof. unfold sameDiscipline. apply String.eqb_eq. Qed.

Lemma generateAnalytics_unfold discipline allClasses :
  generateAnalyticsForDiscipline discipline allClasses
  = map toAnalyticsData
      (sortClassesByPeriod (filterClassesByDiscipline allClasses discipline)).
Proof. reflexivity. Qed.

(** C3. The series is in chronological order, by year and by semester
    within a year, and stably so: the entries of one period are those of
    the retained offerings of that period, in their input order. *)
Theorem generateAnalytics_sorted_stable :
  forall (discipline : string) (allClasses : list Class.t),
    StronglySorted chronological
      (generateAnalyticsForDiscipline discipline allClasses)
    /\ forall y s : Z,
         List.filter (inPeriod y s)
           (generateAnalyticsForDiscipline discipline allClasses)
         = map toAnalyticsData
             (List.filter (offeredIn y s)
                (filterClassesByDiscipline allClasses discipline)).
Proof.
  intros discipline allClasses. rewrite generateAnalytics_unfold. split.
  - eapply StronglySorted_map; [|apply sortClassesByPeriod_sorted].
    intros a b Hab. apply comparePeriod_le in Hab. exact Hab.
  - intros y s. rewrite filter_map_swap.
    change (fun a => inPeriod y s (toAnalyticsData a)) with (offeredIn y s).
    rewrite sortClassesByPeriod_stable. reflexivity.
Qed.

(** Two offerings of one period that differ only in casing keep their input
    order behind an earlier period that came last in the input. *)
Example generateAnalytics_stable_example :
  map AnalyticsData.discipline
    (generateAnalyticsForDiscipline "math"
       [ Class.mk "MATH" 2024 1 None; Class.mk "Math" 2024 1 None;
         Class.mk "math" 2023 2 None ])
  = ["math"; "MATH"; "Math"]%string.
Proof. reflexivity. Qed.

(** The end-to-end example of the specification. *)
Example generateAnalytics_example :
  generateAnalyticsForDiscipline "math" ex_offerings
  = [ AnalyticsData.mk "Math" "2023.1" 2023 1 (mkStats 0 0 0 0 0 0);
      AnalyticsData.mk "Math" "2023.2" 2023 2 (mkStats 1 0 1 0 1 3) ]%string.
Proof. reflexivity. Qed.

(** C4. The pipeline keeps exactly the offerings whose lowercased subject is
    the lowercased query, as whole strings: nothing is trimmed. "Calculus"
    answers to the query "calculus"; " calculus" does not. *)
Theorem filterClassesByDiscipline_exact :
  forall (discipline : string) (allClasses : list Class.t),
    filterClassesByDiscipline allClasses discipline
      = filter (fun classObj =>
                  toLowerCase (Class.topic classObj) = toLowerCase discipline)
          allClasses
    /\ Permutation
         (generateAnalyticsForDiscipline discipline allClasses)
         (map toAnalyticsData
            (filter (fun classObj =>
                       toLowerCase (Class.topic classObj) = toLowerCase discipline)
               allClasses))
    /\ (forall y s en,
          filterClassesByDiscipline [Class.mk "Calculus" y s en] "calculus"
            = [Class.mk "Calculus" y s en]
          /\ filterClassesByDiscipline [Class.mk " calculus" y s en] "calculus" = []
          /\ filterClassesByDiscipline [Class.mk "calculus " y s en] "calculus" = []).
Proof.
  intros discipline allClasses.
  assert (Hf : filterClassesByDiscipline allClasses discipline
               = filter (fun classObj =>
                           toLowerCase (Class.topic classObj) = toLowerCase discipline)
                   allClasses).
  { unfold filterClassesByDiscipline.
    induction allClasses as [|c l IH]; [reflexivity|].
    cbn [List.filter]. rewrite filter_cons, IH.
    destruct (sameDiscipline discipline c) eqn:Hc.
    - apply sameDiscipline_spec in Hc. rewrite decide_True by exact Hc. reflexivity.
    - rewrite decide_False; [reflexivity|].
      intros Heq. apply sameDiscipline_spec in Heq. congruence. }
  split; [exact Hf|]. split.
  - rewrite generateAnalytics_unfold, <- Hf.
    apply Permutation_map, sortClassesByPeriod_perm.
  - intros y s en. repeat split.
Qed.

(** C10. An entry carries the subject of its offering as the offering spells
    it, not as the query does. *)
Theorem generateAnalytics_discipline :
  forall (discipline : string) (allClasses : list Class.t),
    map AnalyticsData.discipline
        (generateAnalyticsForDiscipline discipline allClasses)
      = map Class.topic
          (sortClassesByPeriod (filterClassesByDiscipline allClasses discipline))
    /\ (forall item,
          In item (generateAnalyticsForDiscipline discipline allClasses) ->
          exists classObj,
            In classObj allClasses
            /\ toLowerCase (Class.topic classObj) = toLowerCase discipline
            /\ item = toAnalyticsData classObj
            /\ AnalyticsData.discipline item = Class.topic classObj)
    /\ (forall y s en,
          map AnalyticsData.discipline
            (generateAnalyticsForDiscipline "math" [Class.mk "Math" y s en])
          = ["Math"%string]).
Proof.
  intros discipline allClasses. rewrite generateAnalytics_unfold. repeat split.
  - rewrite map_map. reflexivity.
  - intros item Hin. apply in_map_iff in Hin as (c & <- & Hc).
    apply (Permutation_in _ (sortClassesByPeriod_perm _)) in Hc.
    apply filter_In in Hc as [Hc Hsame]. apply sameDiscipline_spec in Hsame.
    exists c. repeat split; assumption.
Qed.

Lemma generateAnalytics_discipline_witness :
  exists classObj,
    In classObj ex_offerings
    /\ toLowerCase (Class.topic classObj) = toLowerCase "math"
    /\ toAnalyticsData (Class.mk "Math" 2023 1 (Some [])) = toAnalyticsData classObj
    /\ AnalyticsData.discipline (toAnalyticsData (Class.mk "Math" 2023 1 (Some [])))
       = Class.topic classObj.
Proof.
  apply (proj1 (proj2 (generateAnalytics_discipline "math" ex_offerings))).
  simpl. left. reflexivity.
Defined.

End PeriodPipeline.

(** ** Chart projector *)

Section ChartProjector.

Lemma toChartDataPoint_keys item :
  keys (toChartDataPoint item)
  = ["period"; "APV. M"; "APV. N"; "REP. N"; "REP. M"; "REP. F"]%string.
Proof. reflexivity. Qed.

(** What a chart record holds under each of its keys. *)
Lemma toChartDataPoint_get item :
  let statistics := AnalyticsData.statistics item in
  get "period" (toChartDataPoint item) = Some (VString (AnalyticsData.periodLabel item))
  /\ get "APV. M" (toChartDataPoint item) = Some (VNumber (approvedByAverage statistics))
  /\ get "APV. N" (toChartDataPoint item) = Some (VNumber (approvedByGrade statistics))
  /\ get "REP. N" (toChartDataPoint item) = Some (VNumber (failedByGrade statistics))
  /\ get "REP. M" (toChartDataPoint item) = Some (VNumber (failedByAverage statistics))
  /\ get "REP. F" (toChartDataPoint item) = Some (VNumber (failedByAttendance statistics)).
Proof. repeat split. Qed.

(** C5. The projection is entry by entry: as many records as entries, the
    i-th record made from the i-th entry alone, with the entry's period
    label and its five counters. Projecting a series built by the pipeline
    therefore keeps its length and its order of periods. *)
Theorem transformToChartData_pointwise :
  forall analyticsData : list AnalyticsData.t,
    length (transformToChartData analyticsData) = length analyticsData
    /\ (forall (i : nat) (item : AnalyticsData.t),
          nth_error analyticsData i = Some item ->
          exists point,
            nth_error (transformToChartData analyticsData) i = Some point
            /\ get "period" point = Some (VString (AnalyticsData.periodLabel item))
            /\ get "APV. M" point
               = Some (VNumber (approvedByAverage (AnalyticsData.statistics item)))
            /\ get "APV. N" point
               = Some (VNumber (approvedByGrade (AnalyticsData.statistics item)))
            /\ get "REP. N" point
               = Some (VNumber (failedByGrade (AnalyticsData.statistics item)))
            /\ get "REP. M" point
               = Some (VNumber (failedByAverage (AnalyticsData.statistics item)))
            /\ get "REP. F" point
               = Some (VNumber (failedByAttendance (AnalyticsData.statistics item))))
    /\ (forall (discipline : string) (allClasses : list Class.t),
          let series := generateAnalyticsForDiscipline discipline allClasses in
          length (transformToChartData series) = length series
          /\ map (get "period") (transformToChartData series)
             = map (fun item => Some (VString (AnalyticsData.periodLabel item))) series).
Proof.
  intros analyticsData. unfold transformToChartData. split; [|split].
  - apply length_map.
  - intros i item Hi. exists (toChartDataPoint item). split.
    + apply map_nth_error, Hi.
    + apply toChartDataPoint_get.
  - intros discipline allClasses. cbv zeta. split.
    + apply length_map.
    + rewrite map_map. reflexivity.
Qed.

Lemma transformToChartData_pointwise_witness :
  exists point,
    nth_error
      (transformToChartData (generateAnalyticsForDiscipline "math" ex_offerings)) 1
    = Some point
    /\ get "period" point = Some (VString "2023.2")
    /\ get "APV. M" point = Some (VNumber 1)
    /\ get "APV. N" point = Some (VNumber 1)
    /\ get "REP. N" point = Some (VNumber 0)
    /\ get "REP. M" point = Some (VNumber 0)
    /\ get "REP. F" point = Some (VNumber 1).
Proof.
  apply (proj1 (proj2 (transformToChartData_pointwise
                         (generateAnalyticsForDiscipline "math" ex_offerings)))
           1%nat (toAnalyticsData (Class.mk "Math" 2023 2
                    (Some [ mkEnrollment (Some (lit 8)) None None;
                            mkEnrollment (Some (lit 5)) (Some (lit 6)) None;
                            mkEnrollment None None (Some true) ])))).
  reflexivity.
Defined.

(** C9. A chart record has the six properties [period], ['APV. M'],
    ['APV. N'], ['REP. N'], ['REP. M'] and ['REP. F'] and no other; the five
    counts are, in this order, approvedByAverage, approvedByGrade,
    failedByGrade, failedByAverage and failedByAttendance of the entry it
    comes from. There is no property under a spelled-out name. *)
Theorem chart_record_keys :
  forall (analyticsData : list AnalyticsData.t) (point : ChartDataPoint),
    In point (transformToChartData analyticsData) ->
    keys point = ["period"; "APV. M"; "APV. N"; "REP. N"; "REP. M"; "REP. F"]%string
    /\ get "approved-by-average" point = None
    /\ exists item,
         In item analyticsData
         /\ get "period" point = Some (VString (AnalyticsData.periodLabel item))
         /\ get "APV. M" point
            = Some (VNumber (approvedByAverage (AnalyticsData.statistics item)))
         /\ get "APV. N" point
            = Some (VNumber (approvedByGrade (AnalyticsData.statistics item)))
         /\ get "REP. N" point
            = Some (VNumber (failedByGrade (AnalyticsData.statistics item)))
         /\ get "REP. M" point
            = Some (VNumber (failedByAverage (AnalyticsData.statistics item)))
         /\ get "REP. F" point
            = Some (VNumber (failedByAttendance (AnalyticsData.statistics item))).
Proof.
  intros analyticsData point Hin.
  apply in_map_iff in Hin as (item & <- & Hitem).
  split; [apply toChartDataPoint_keys|]. split; [reflexivity|].
  exists item. split; [exact Hitem | apply toChartDataPoint_get].
Qed.

Lemma chart_record_keys_witness :
  let point := toChartDataPoint (toAnalyticsData (Class.mk "Math" 2023 1 (Some []))) in
  keys point = ["period"; "APV. M"; "APV. N"; "REP. N"; "REP. M"; "REP. F"]%string
  /\ get "approved-by-average" point = None
  /\ exists item,
       In item (generateAnalyticsForDiscipline "math" ex_offerings)
       /\ get "period" point = Some (VString (AnalyticsData.periodLabel item))
       /\ get "APV. M" point
          = Some (VNumber (approvedByAverage (AnalyticsData.statistics item)))
       /\ get "APV. N" point
          = Some (VNumber (approvedByGrade (AnalyticsData.statistics item)))
       /\ get "REP. N" point
          = Some (VNumber (failedByGrade (AnalyticsData.statistics item)))
       /\ get "REP. M" point
          = Some (VNumber (failedByAverage (AnalyticsData.statistics item)))
       /\ get "REP. F" point
          = Some (VNumber (failedByAttendance (AnalyticsData.statistics item))).
Proof.
  apply (chart_record_keys (generateAnalyticsForDiscipline "math" ex_offerings)).
  simpl. left. reflexivity.
Defined.

End ChartProjector.

(** ** The caller's array *)

Section ArrayHeapFacts.
Implicit Types (h : ArrayHeap.heap) (r : ArrayHeap.loc) (a : list Class.t).

(** A new array never takes the place of one that is there. *)
Lemma alloc_spec a h :
  exists r, ArrayHeap.alloc a h = Some (r, <[r := a]> h) /\ h !! r = None.
Proof.
  exists (fresh (dom h)). split; [reflexivity|].
  apply not_elem_of_dom, is_fresh.
Qed.

(** A location without an array is none of the locations in use. *)
Lemma unused_ne h r r' a : h !! r = Some a -> h !! r' = None -> r' <> r.
Proof. intros Hr Hr' ->. rewrite Hr in Hr'. discriminate. Qed.

Lemma read_spec r a h : h !! r = Some a -> ArrayHeap.read r h = Some (a, h).
Proof. unfold ArrayHeap.read. intros ->. reflexivity. Qed.

Lemma write_spec r a a' h :
  h !! r = Some a -> ArrayHeap.write r a' h = Some (tt, <[r := a']> h).
Proof. unfold ArrayHeap.write. intros ->. reflexivity. Qed.

Lemma bind_spec {A B : Type} (m : ArrayHeap.M A) (k : A -> ArrayHeap.M B) h x h' :
  m h = Some (x, h') -> (m ≫= k) h = k x h'.
Proof. unfold mbind, ArrayHeap.M_bind. intros ->. reflexivity. Qed.

Lemma array_filter_spec p r a h :
  h !! r = Some a ->
  exists r', ArrayHeap.array_filter p r h = Some (r', <[r' := List.filter p a]> h)
             /\ h !! r' = None.
Proof.
  intros Hr. unfold ArrayHeap.array_filter.
  rewrite (bind_spec _ _ _ _ _ (read_spec r a h Hr)). apply alloc_spec.
Qed.

Lemma array_spread_spec r a h :
  h !! r = Some a ->
  exists r', ArrayHeap.array_spread r h = Some (r', <[r' := a]> h) /\ h !! r' = None.
Proof.
  intros Hr. unfold ArrayHeap.array_spread.
  rewrite (bind_spec _ _ _ _ _ (read_spec r a h Hr)). apply alloc_spec.
Qed.

(** [sort] overwrites the array it is called on. *)
Lemma array_sort_in_place_spec comparefn r a h :
  h !! r = Some a ->
  ArrayHeap.array_sort_in_place comparefn r h
  = Some (r, <[r := array_sort comparefn a]> h).
Proof.
  intros Hr. unfold ArrayHeap.array_sort_in_place.
  rewrite (bind_spec _ _ _ _ _ (read_spec r a h Hr)).
  rewrite (bind_spec _ _ _ _ _ (write_spec r a _ h Hr)).
  reflexivity.
Qed.

(** [sortClassesByPeriod] sorts a copy: the result is a new array, and the
    store differs from the old one by that array alone. *)
Lemma sortClassesByPeriod_spec r a h :
  h !! r = Some a ->
  exists r', ArrayHeap.sortClassesByPeriod r h
             = Some (r', <[r' := sortClassesByPeriod a]> h)
             /\ h !! r' = None.
Proof.
  intros Hr. unfold ArrayHeap.sortClassesByPeriod.
  destruct (array_spread_spec r a h Hr) as (r' & Hcopy & Hfresh).
  exists r'. split; [|exact Hfresh].
  rewrite (bind_spec _ _ _ _ _ Hcopy).
  rewrite (array_sort_in_place_spec _ r' a) by apply lookup_insert_eq.
  rewrite insert_insert_eq. reflexivity.
Qed.

(** Sorting the caller's array itself, without the copy, would show. *)
Example array_sort_in_place_mutates :
  (ArrayHeap.array_sort_in_place comparePeriod 1%positive {[ 1%positive := ex_offerings ]})
  = Some (1%positive, {[ 1%positive := rev ex_offerings ]}).
Proof.
  rewrite (array_sort_in_place_spec _ _ ex_offerings) by apply lookup_singleton_eq.
  rewrite insert_singleton_eq. reflexivity.
Qed.

(** C8. The pipeline leaves the caller's array as it found it. Called on an
    array holding [classes], [sortClassesByPeriod] returns another array,
    and [generateAnalyticsForDiscipline] returns the series computed from
    [classes]; after either, the caller's array still holds [classes], and
    so does every array that was in the store. *)
Theorem generateAnalytics_preserves_input :
  forall (discipline : string) (allClasses : ArrayHeap.loc) (classes : list Class.t) (h : ArrayHeap.heap),
    h !! allClasses = Some classes ->
    (exists sorted h',
       ArrayHeap.sortClassesByPeriod allClasses h = Some (sorted, h')
       /\ sorted <> allClasses
       /\ h' !! sorted = Some (sortClassesByPeriod classes)
       /\ h' !! allClasses = Some classes
       /\ h ⊆ h')
    /\ (exists h',
          ArrayHeap.generateAnalyticsForDiscipline discipline allClasses h
          = Some (generateAnalyticsForDiscipline discipline classes, h')
          /\ h' !! allClasses = Some classes
          /\ h ⊆ h').
Proof.
  intros discipline allClasses classes h Hr. split.
  - destruct (sortClassesByPeriod_spec allClasses classes h Hr) as (r' & Hrun & Hfresh).
    exists r', (<[r' := sortClassesByPeriod classes]> h).
    split; [exact Hrun|]. split; [eapply unused_ne; eassumption|].
    split; [apply lookup_insert_eq|]. split.
    + rewrite lookup_insert_ne by (eapply unused_ne; eassumption). exact Hr.
    + apply insert_subseteq, Hfresh.
  - unfold ArrayHeap.generateAnalyticsForDiscipline, ArrayHeap.filterClassesByDiscipline.
    destruct (array_filter_spec (sameDiscipline discipline) allClasses classes h Hr)
      as (r1 & Hfilter & Hfresh1).
    rewrite (bind_spec _ _ _ _ _ Hfilter).
    set (filtered := List.filter (sameDiscipline discipline) classes) in *.
    destruct (sortClassesByPeriod_spec r1 filtered (<[r1 := filtered]> h))
      as (r2 & Hsort & Hfresh2); [apply lookup_insert_eq|].
    rewrite (bind_spec _ _ _ _ _ Hsort).
    eexists. split; [|split].
    + unfold ArrayHeap.array_map.
      rewrite (bind_spec _ _ _ _ _ (read_spec r2 _ _ (lookup_insert_eq _ _ _))).
      reflexivity.
    + assert (Hne1 : r1 <> allClasses) by (eapply unused_ne; eassumption).
      rewrite lookup_insert_ne.
      * rewrite lookup_insert_ne by exact Hne1. exact Hr.
      * apply (unused_ne (<[r1 := filtered]> h) allClasses r2 classes); [|exact Hfresh2].
        rewrite lookup_insert_ne by exact Hne1. exact Hr.
    + etransitivity; [apply (insert_subseteq h r1 filtered Hfresh1)|].
      apply insert_subseteq, Hfresh2.
Qed.

Lemma generateAnalytics_preserves_input_witness :
  exists h',
    ArrayHeap.generateAnalyticsForDiscipline "math" 1%positive
      {[ 1%positive := ex_offerings ]}
    = Some (generateAnalyticsForDiscipline "math" ex_offerings, h')
    /\ h' !! 1%positive = Some ex_offerings
    /\ ({[ 1%positive := ex_offerings ]} : ArrayHeap.heap) ⊆ h'.
Proof.
  apply (generateAnalytics_preserves_input "math" 1%positive ex_offerings
           {[ 1%positive := ex_offerings ]}).
  reflexivity.
Defined.

End ArrayHeapFacts.

(** * Further properties *)

(** ** The decision rule read backwards *)

Section ClassifierFurther.

Lemma geb_true_not_nan a b : geb a b = true -> is_nan a = false /\ is_nan b = false.
Proof. destruct a, b; simpl; intros; split; congruence. Qed.

(** [>=] is transitive. *)
Lemma geb_trans a b c : geb a b = true -> geb b c = true -> geb a c = true.
Proof.
  destruct a, b, c; simpl; try congruence.
  rewrite !Qle_bool_iff. intros Hab Hbc. eapply Qle_trans; eassumption.
Qed.

(** The three facts about a pre-final average that tie the guards of the
    rule together. *)
Lemma guards_7_3 a : geb a (lit 7) = true -> geb a (lit 3) = true.
Proof. apply (geb_lit_mono a 3 7). lia. Qed.

Lemma guards_band a :
  geb a (lit 3) = true -> geb a (lit 7) = false -> ltb a (lit 7) = true.
Proof.
  intros H3 H7. destruct (geb_true_not_nan _ _ H3) as [Hn _].
  rewrite ltb_negb_geb by (exact Hn || reflexivity). rewrite H7. reflexivity.
Qed.

(** X1. Each category is returned in exactly one situation: the rule can be
    read from the result back to the grades. A failedByAverage in particular
    means that the pre-final average is not [>= 3.0] (it is lower, or not a
    number) and that the attendance flag is off. *)
Theorem classifyStudent_inversion :
  forall e : Enrollment,
    let att := attendanceFlag e in
    let pre := preFinalAverage e in
    let post := postFinalAverage e in
    (classifyStudent e = Some K_failedByAttendance <-> att = true)
    /\ (classifyStudent e = Some K_approvedByAverage
        <-> att = false /\ geb pre (lit 7) = true)
    /\ (classifyStudent e = Some K_approvedByGrade
        <-> att = false /\ geb pre (lit 3) = true /\ ltb pre (lit 7) = true
            /\ geb post (lit 5) = true)
    /\ (classifyStudent e = Some K_failedByGrade
        <-> att = false /\ geb pre (lit 3) = true /\ ltb pre (lit 7) = true
            /\ geb post (lit 5) = false)
    /\ (classifyStudent e = Some K_failedByAverage
        <-> att = false /\ geb pre (lit 3) = false).
Proof.
  intros e att pre post.
  pose proof (guards_7_3 pre) as H73.
  pose proof (guards_band pre) as Hband.
  pose proof (ltb_true_geb_false pre (lit 7)) as Hlt.
  unfold classifyStudent.
  fold (attendanceFlag e) (preFinalAverage e) (postFinalAverage e).
  fold att pre post.
  destruct att, (geb pre (lit 7)), (geb pre (lit 3)), (ltb pre (lit 7)),
    (geb post (lit 5)); simpl; intuition congruence.
Qed.

(** X2. The post-final average matters in the remedial band only: unless the
    result is approvedByGrade or failedByGrade, any other post-final average,
    or none, gives the same result. *)
Theorem classifyStudent_post_only_in_band :
  forall (pre post post' : option number) (att : option bool),
    classifyStudent (mkEnrollment pre post att) <> Some K_approvedByGrade ->
    classifyStudent (mkEnrollment pre post att) <> Some K_failedByGrade ->
    classifyStudent (mkEnrollment pre post' att)
    = classifyStudent (mkEnrollment pre post att).
Proof.
  intros pre post post' att. unfold classifyStudent. simpl.
  destruct (att ?? false); [reflexivity|].
  destruct (geb (pre ?? lit 0) (lit 7)); [reflexivity|].
  destruct (geb (pre ?? lit 0) (lit 3) && ltb (pre ?? lit 0) (lit 7)); [|reflexivity].
  destruct (geb (post ?? lit 0) (lit 5)); congruence.
Qed.

Lemma classifyStudent_post_only_in_band_witness :
  classifyStudent (mkEnrollment (Some (lit 8)) (Some (lit 2)) None)
  = classifyStudent (mkEnrollment (Some (lit 8)) None None).
Proof.
  apply (classifyStudent_post_only_in_band (Some (lit 8)) None (Some (lit 2)) None);
    vm_compute; discriminate.
Defined.

(** X3. Better grades never cost an approval: if a student is approved, a
    student without attendance failure whose two averages are at least as
    high is approved as well. *)
Theorem classifyStudent_approval_monotone :
  forall e e' : Enrollment,
    approved (classifyStudent e) = true ->
    attendanceFlag e' = false ->
    geb (preFinalAverage e') (preFinalAverage e) = true ->
    geb (postFinalAverage e') (postFinalAverage e) = true ->
    approved (classifyStudent e') = true.
Proof.
  intros e e' Happ Hatt Hpre Hpost.
  unfold classifyStudent in *.
  fold (attendanceFlag e) (preFinalAverage e) (postFinalAverage e) in Happ.
  fold (attendanceFlag e') (preFinalAverage e') (postFinalAverage e').
  rewrite Hatt.
  destruct (attendanceFlag e); [discriminate|].
  destruct (geb (preFinalAverage e) (lit 7)) eqn:H7.
  - rewrite (geb_trans _ _ _ Hpre H7). reflexivity.
  - destruct (geb (preFinalAverage e) (lit 3)) eqn:H3; [|discriminate].
    simpl in Happ.
    destruct (ltb (preFinalAverage e) (lit 7)); [|discriminate].
    destruct (geb (postFinalAverage e) (lit 5)) eqn:H5; [|discriminate].
    destruct (geb (preFinalAverage e') (lit 7)) eqn:H7'; [reflexivity|].
    rewrite (geb_trans _ _ _ Hpre H3).
    rewrite (guards_band _ (geb_trans _ _ _ Hpre H3) H7').
    rewrite (geb_trans _ _ _ Hpost H5). reflexivity.
Qed.

Lemma classifyStudent_approval_monotone_witness :
  approved (classifyStudent (mkEnrollment (Some (lit 8)) (Some (lit 6)) None)) = true.
Proof.
  apply (classifyStudent_approval_monotone
           (mkEnrollment (Some (lit 5)) (Some (lit 6)) None)
           (mkEnrollment (Some (lit 8)) (Some (lit 6)) None));
    reflexivity.
Defined.

End ClassifierFurther.

(** ** What the counters count *)

Section AggregatorFurther.

Lemma countOf_cons k e l :
  countOf k (e :: l) = ((if classifiedAs k e then 1 else 0) + countOf k l)%nat.
Proof. unfold countOf. simpl. destruct (classifiedAs k e); reflexivity. Qed.

Lemma countOf_app k l1 l2 : countOf k (l1 ++ l2) = (countOf k l1 + countOf k l2)%nat.
Proof. unfold countOf. rewrite List.filter_app, length_app. reflexivity. Qed.

Lemma countOf_perm k l l' : Permutation l l' -> countOf k l = countOf k l'.
Proof.
  induction 1 as [|x l l' _ IH|x y l|l l' l'' _ IH1 _ IH2].
  - reflexivity.
  - rewrite !countOf_cons, IH. reflexivity.
  - rewrite !countOf_cons. lia.
  - congruence.
Qed.

(** The loop adds to each counter the number of enrollments of its
    category. *)
Lemma fold_tally_counts l stats :
  fold_left tally l stats
  = mkStats (approvedByAverage stats + countOf K_approvedByAverage l)
            (failedByAverage stats + countOf K_failedByAverage l)
            (approvedByGrade stats + countOf K_approvedByGrade l)
            (failedByGrade stats + countOf K_failedByGrade l)
            (failedByAttendance stats + countOf K_failedByAttendance l)
            (totalStudents stats).
Proof.
  revert stats. induction l as [|e l IH]; intros stats.
  - destruct stats. unfold countOf. simpl. f_equal; lia.
  - cbn [fold_left]. rewrite IH, !countOf_cons. unfold tally, classifiedAs.
    destruct stats. destruct (classifyStudent e) as [[]|]; simpl; f_equal; lia.
Qed.

Lemma calculateClassStatistics_countOf classObj :
  calculateClassStatistics classObj
  = let l := or_empty (Class.enrollments classObj) in
    mkStats (countOf K_approvedByAverage l) (countOf K_failedByAverage l)
            (countOf K_approvedByGrade l) (countOf K_failedByGrade l)
            (countOf K_failedByAttendance l) (length l).
Proof. unfold calculateClassStatistics. rewrite fold_tally_counts. reflexivity. Qed.

(** X4. Each counter is the number of enrollments of the offering that the
    classifier puts in its category; [totalStudents] is the number of
    enrollments. *)
Theorem calculateClassStatistics_counters :
  forall classObj : Class.t,
    let l := or_empty (Class.enrollments classObj) in
    let stats := calculateClassStatistics classObj in
    approvedByAverage stats = countOf K_approvedByAverage l
    /\ failedByAverage stats = countOf K_failedByAverage l
    /\ approvedByGrade stats = countOf K_approvedByGrade l
    /\ failedByGrade stats = countOf K_failedByGrade l
    /\ failedByAttendance stats = countOf K_failedByAttendance l
    /\ totalStudents stats = length l.
Proof.
  intros classObj l stats. subst l stats.
  rewrite calculateClassStatistics_countOf. repeat split.
Qed.

(** X5. The statistics do not depend on the order of the enrollments, nor on
    anything else in the offering: two offerings whose enrollments are the
    same up to order have the same statistics. *)
Theorem calculateClassStatistics_order_independent :
  forall a b : Class.t,
    Permutation (or_empty (Class.enrollments a)) (or_empty (Class.enrollments b)) ->
    calculateClassStatistics a = calculateClassStatistics b.
Proof.
  intros a b Hperm. rewrite !calculateClassStatistics_countOf. cbv zeta.
  rewrite (Permutation_length Hperm).
  rewrite !(fun k => countOf_perm k _ _ Hperm). reflexivity.
Qed.

Lemma calculateClassStatistics_order_independent_witness :
  calculateClassStatistics
    (Class.mk "Math" 2023 2
       (Some [ mkEnrollment None None (Some true);
               mkEnrollment (Some (lit 8)) None None ]))
  = calculateClassStatistics
      (Class.mk "Physics" 2024 1
         (Some [ mkEnrollment (Some (lit 8)) None None;
                 mkEnrollment None None (Some true) ])).
Proof.
  apply calculateClassStatistics_order_independent. simpl. apply perm_swap.
Defined.

(** X6. Statistics add up: an offering whose enrollments are those of two
    others, one after the other, has the sums of their counters. *)
Theorem calculateClassStatistics_app :
  forall c a b : Class.t,
    or_empty (Class.enrollments c)
    = or_empty (Class.enrollments a) ++ or_empty (Class.enrollments b) ->
    calculateClassStatistics c
    = addStats (calculateClassStatistics a) (calculateClassStatistics b).
Proof.
  intros c a b Hc. rewrite !calculateClassStatistics_countOf. cbv zeta.
  rewrite Hc, !countOf_app, length_app. reflexivity.
Qed.

Lemma calculateClassStatistics_app_witness :
  calculateClassStatistics
    (Class.mk "Math" 2023 2
       (Some [ mkEnrollment (Some (lit 8)) None None;
               mkEnrollment None None (Some true) ]))
  = addStats
      (calculateClassStatistics
         (Class.mk "Math" 2023 2 (Some [ mkEnrollment (Some (lit 8)) None None ])))
      (calculateClassStatistics
         (Class.mk "Math" 2023 2 (Some [ mkEnrollment None None (Some true) ]))).
Proof. apply calculateClassStatistics_app. reflexivity. Defined.

Lemma calculateClassStatistics_outcomes classObj :
  outcomes (calculateClassStatistics classObj)
  = length (or_empty (Class.enrollments classObj)).
Proof.
  unfold calculateClassStatistics.
  change tally with (tally_with classifyStudent).
  rewrite fold_tally_outcomes_eq by apply classifyStudent_total. reflexivity.
Qed.

End AggregatorFurther.

(** ** Sorting what is sorted, sorting what is filtered *)

Section ArraySortFurther.
Context {A : Type}.
Variable comparefn : A -> A -> Z.

(** An element that may stand before all others is put in front. *)
Lemma sort_insert_first x l :
  Forall (fun y => comparefn x y <= 0) l -> sort_insert comparefn x l = x :: l.
Proof.
  destruct l as [|y l]; [reflexivity|]. intros H.
  apply Forall_inv in H. apply Z.leb_le in H. simpl. rewrite H. reflexivity.
Qed.

(** The sort leaves an ordered array as it is. *)
Lemma array_sort_sorted_id l :
  StronglySorted (fun a b => comparefn a b <= 0) l -> array_sort comparefn l = l.
Proof.
  induction 1 as [|x l Hl IH Hx]; [reflexivity|].
  cbn [array_sort fold_right]. fold (array_sort comparefn l).
  rewrite IH. apply sort_insert_first, Hx.
Qed.

Section Consistent.
Hypothesis comparefn_total : forall a b, 0 < comparefn a b -> comparefn b a <= 0.
Hypothesis comparefn_trans :
  forall a b c, comparefn a b <= 0 -> comparefn b c <= 0 -> comparefn a c <= 0.

Lemma filter_sort_insert (p : A -> bool) x s :
  StronglySorted (fun a b => comparefn a b <= 0) s ->
  List.filter p (sort_insert comparefn x s)
  = if p x then sort_insert comparefn x (List.filter p s) else List.filter p s.
Proof.
  induction 1 as [|y s Hs IH Hy].
  - simpl. destruct (p x); reflexivity.
  - cbn [sort_insert]. destruct (comparefn x y <=? 0) eqn:Hxy.
    + apply Z.leb_le in Hxy. cbn [List.filter].
      destruct (p x); [|reflexivity].
      symmetry. apply sort_insert_first.
      apply List.Forall_forall. intros z Hz.
      assert (Hz' : In z (y :: s)).
      { destruct (p y); [|right; apply filter_In in Hz; tauto].
        destruct Hz as [<-|Hz]; [left; reflexivity|].
        right. apply filter_In in Hz. tauto. }
      clear Hz. destruct Hz' as [<-|Hz']; [exact Hxy|].
      apply (comparefn_trans x y z Hxy).
      revert z Hz'. apply List.Forall_forall, Hy.
    + cbn [List.filter]. rewrite IH.
      destruct (p y), (p x); try reflexivity.
      cbn [sort_insert]. rewrite Hxy. reflexivity.
Qed.

(** Filtering before or after the sort comes to the same. *)
Lemma filter_array_sort (p : A -> bool) l :
  List.filter p (array_sort comparefn l) = array_sort comparefn (List.filter p l).
Proof.
  induction l as [|x l IH]; [reflexivity|].
  cbn [array_sort fold_right List.filter]. fold (array_sort comparefn l).
  rewrite filter_sort_insert
    by (apply array_sort_sorted; [apply comparefn_total | apply comparefn_trans]).
  rewrite IH. destruct (p x); reflexivity.
Qed.

Lemma filter_sorted (p : A -> bool) l :
  StronglySorted (fun a b => comparefn a b <= 0) l ->
  StronglySorted (fun a b => comparefn a b <= 0) (List.filter p l).
Proof.
  induction 1 as [|x l Hl IH Hx]; simpl; [constructor|].
  destruct (p x); [|exact IH]. constructor; [exact IH|].
  apply List.Forall_forall. intros z Hz. apply filter_In in Hz as [Hz _].
  revert z Hz. apply List.Forall_forall, Hx.
Qed.
End Consistent.

End ArraySortFurther.

(** ** The series and its input *)

Section PeriodPipelineFurther.

Lemma filterClasses_sort_commute classes discipline :
  filterClassesByDiscipline (sortClassesByPeriod classes) discipline
  = sortClassesByPeriod (filterClassesByDiscipline classes discipline).
Proof.
  apply filter_array_sort; [apply comparePeriod_total | apply comparePeriod_trans].
Qed.

Lemma sortClassesByPeriod_sorted_id classes :
  StronglySorted (fun a b => comparePeriod a b <= 0) classes ->
  sortClassesByPeriod classes = classes.
Proof. apply array_sort_sorted_id. Qed.

(** X7. Sorting twice is sorting once, sorting and filtering commute, and so
    the series does not change when the offerings are handed over already
    sorted by period. *)
Theorem generateAnalytics_presorted :
  forall (discipline : string) (allClasses : list Class.t),
    sortClassesByPeriod (sortClassesByPeriod allClasses) = sortClassesByPeriod allClasses
    /\ filterClassesByDiscipline (sortClassesByPeriod allClasses) discipline
       = sortClassesByPeriod (filterClassesByDiscipline allClasses discipline)
    /\ generateAnalyticsForDiscipline discipline (sortClassesByPeriod allClasses)
       = generateAnalyticsForDiscipline discipline allClasses.
Proof.
  intros discipline allClasses.
  assert (Hidem : forall l, sortClassesByPeriod (sortClassesByPeriod l)
                            = sortClassesByPeriod l).
  { intros l. apply sortClassesByPeriod_sorted_id, sortClassesByPeriod_sorted. }
  split; [apply Hidem|]. split; [apply filterClasses_sort_commute|].
  rewrite !generateAnalytics_unfold, filterClasses_sort_commute, Hidem.
  reflexivity.
Qed.

(** X8. On offerings that come in chronological order the sort changes
    nothing: the series is the matching offerings in their input order. *)
Theorem generateAnalytics_of_sorted :
  forall (discipline : string) (allClasses : list Class.t),
    StronglySorted (fun a b => comparePeriod a b <= 0) allClasses ->
    generateAnalyticsForDiscipline discipline allClasses
    = map toAnalyticsData (filterClassesByDiscipline allClasses discipline).
Proof.
  intros discipline allClasses Hs. rewrite generateAnalytics_unfold.
  rewrite sortClassesByPeriod_sorted_id; [reflexivity|].
  apply filter_sorted, Hs.
Qed.

Lemma generateAnalytics_of_sorted_witness :
  generateAnalyticsForDiscipline "math"
    [ Class.mk "Math" 2023 1 None; Class.mk "Art" 2023 2 None;
      Class.mk "MATH" 2024 1 None ]
  = map toAnalyticsData
      (filterClassesByDiscipline
         [ Class.mk "Math" 2023 1 None; Class.mk "Art" 2023 2 None;
           Class.mk "MATH" 2024 1 None ] "math").
Proof.
  apply generateAnalytics_of_sorted.
  repeat constructor; vm_compute; discriminate.
Defined.

End PeriodPipelineFurther.

(** ** Queries, matches and labels *)

Section SeriesFurther.

Lemma filter_nil_iff {A : Type} (f : A -> bool) (l : list A) :
  List.filter f l = [] <-> forall x, In x l -> f x = false.
Proof.
  induction l as [|a l IH]; simpl.
  - split; [intros _ x [] | reflexivity].
  - destruct (f a) eqn:Ha.
    + split; [discriminate|]. intros H. specialize (H a (or_introl eq_refl)).
      congruence.
    + rewrite IH. split.
      * intros H x [<-|Hx]; [exact Ha | apply H, Hx].
      * intros H x Hx. apply H. right. exact Hx.
Qed.

Lemma filter_length_bound {A : Type} (f : A -> bool) (l : list A) :
  (length (List.filter f l) <= length l)%nat.
Proof.
  induction l as [|a l IH]; simpl; [lia|]. destruct (f a); simpl; lia.
Qed.

Lemma generateAnalytics_length discipline allClasses :
  length (generateAnalyticsForDiscipline discipline allClasses)
  = length (filterClassesByDiscipline allClasses discipline).
Proof.
  rewrite generateAnalytics_unfold, length_map.
  apply array_sort_length.
Qed.

(** X9. One chart record per matching offering, no merging of offerings of
    one period: the chart has as many records as offerings match, at most as
    many as there are offerings, and the series is empty exactly when no
    offering matches, the empty collection included. *)
Theorem generateAnalytics_one_per_match :
  forall (discipline : string) (allClasses : list Class.t),
    length (transformToChartData (generateAnalyticsForDiscipline discipline allClasses))
    = length (filterClassesByDiscipline allClasses discipline)
    /\ (length (generateAnalyticsForDiscipline discipline allClasses)
        <= length allClasses)%nat
    /\ (generateAnalyticsForDiscipline discipline allClasses = []
        <-> forall classObj,
              In classObj allClasses ->
              toLowerCase (Class.topic classObj) <> toLowerCase discipline)
    /\ (transformToChartData (generateAnalyticsForDiscipline discipline allClasses) = []
        <-> generateAnalyticsForDiscipline discipline allClasses = []).
Proof.
  intros discipline allClasses. split; [|split; [|split]].
  - unfold transformToChartData. rewrite length_map. apply generateAnalytics_length.
  - rewrite generateAnalytics_length. apply filter_length_bound.
  - transitivity (filterClassesByDiscipline allClasses discipline = []).
    + rewrite <- !length_zero_iff_nil, generateAnalytics_length. reflexivity.
    + unfold filterClassesByDiscipline. rewrite filter_nil_iff.
      split; intros H c Hc; specialize (H c Hc).
      * intros Heq. apply sameDiscipline_spec in Heq. congruence.
      * destruct (sameDiscipline discipline c) eqn:Hs; [|reflexivity].
        apply sameDiscipline_spec in Hs. contradiction.
  - unfold transformToChartData.
    rewrite <- !length_zero_iff_nil, length_map. reflexivity.
Qed.





Lemma barsTotal_outcomes item :
  barsTotal (toChartDataPoint item) = outcomes (AnalyticsData.statistics item).
Proof. unfold barsTotal, outcomes. cbn. lia. Qed.

(** X11. The bars of a chart record account for every student: in a chart
    built from a series of the pipeline, the five counts of a record add up
    to the number of enrollments of the offering the record stands for. *)
Theorem chart_bars_total :
  forall (discipline : string) (allClasses : list Class.t) (point : ChartDataPoint),
    In point
      (transformToChartData (generateAnalyticsForDiscipline discipline allClasses)) ->
    exists classObj,
      In classObj allClasses
      /\ point = toChartDataPoint (toAnalyticsData classObj)
      /\ barsTotal point = length (or_empty (Class.enrollments classObj)).
Proof.
  intros discipline allClasses point Hin.
  apply in_map_iff in Hin as (item & <- & Hitem).
  rewrite generateAnalytics_unfold in Hitem.
  apply in_map_iff in Hitem as (c & <- & Hc).
  apply (Permutation_in _ (sortClassesByPeriod_perm _)) in Hc.
  apply filter_In in Hc as [Hc _].
  exists c. split; [exact Hc|]. split; [reflexivity|].
  rewrite barsTotal_outcomes. apply calculateClassStatistics_outcomes.
Qed.

Lemma chart_bars_total_witness :
  exists classObj,
    In classObj ex_offerings
    /\ toChartDataPoint
         (AnalyticsData.mk "Math" "2023.2" 2023 2 (mkStats 1 0 1 0 1 3))
       = toChartDataPoint (toAnalyticsData classObj)
    /\ barsTotal
         (toChartDataPoint
            (AnalyticsData.mk "Math" "2023.2" 2023 2 (mkStats 1 0 1 0 1 3)))
       = length (or_empty (Class.enrollments classObj)).
Proof.
  apply (chart_bars_total "math" ex_offerings).
  simpl. right. left. reflexivity.
Defined.

End SeriesFurther.

(** ** Period labels *)

Section PeriodLabel.






End PeriodLabel.

(** ** The sorted arrangement is the only one *)

Section SortUnique.

Lemma offeredIn_own c : offeredIn (Class.year c) (Class.semester c) c = true.
Proof. unfold offeredIn. rewrite !Z.eqb_refl. reflexivity. Qed.

Lemma offeredIn_tie a b :
  comparePeriod a b <= 0 -> comparePeriod b a <= 0 ->
  offeredIn (Class.year a) (Class.semester a) b = true.
Proof.
  rewrite !comparePeriod_le. intros Hab Hba.
  unfold offeredIn. apply andb_true_iff. rewrite !Z.eqb_eq. lia.
Qed.

Lemma offeredIn_sym a b :
  offeredIn (Class.year a) (Class.semester a) b
  = offeredIn (Class.year b) (Class.semester b) a.
Proof. unfold offeredIn. rewrite (Z.eqb_sym (Class.year b)), (Z.eqb_sym (Class.semester b)). reflexivity. Qed.

(** The head of an ordered list may stand before every element of a group
    drawn from the list. *)
Lemma sorted_head_first (p : Class.t -> bool) a l x rest :
  StronglySorted (fun a b => comparePeriod a b <= 0) (a :: l) ->
  List.filter p l = x :: rest -> comparePeriod a x <= 0.
Proof.
  intros Hs Hf. apply StronglySorted_inv in Hs as [_ Ha].
  assert (Hx : In x (List.filter p l)) by (rewrite Hf; left; reflexivity).
  apply filter_In in Hx as [Hx _]. clear Hf.
  revert x Hx. apply List.Forall_forall, Ha.
Qed.

Lemma sorted_stable_unique (l1 l2 : list Class.t) :
  StronglySorted (fun a b => comparePeriod a b <= 0) l1 ->
  StronglySorted (fun a b => comparePeriod a b <= 0) l2 ->
  (forall y s, List.filter (offeredIn y s) l1 = List.filter (offeredIn y s) l2) ->
  l1 = l2.
Proof.
  revert l2. induction l1 as [|a l1 IH]; intros [|b l2] Hs1 Hs2 H.
  - reflexivity.
  - specialize (H (Class.year b) (Class.semester b)).
    simpl in H. rewrite offeredIn_own in H. discriminate.
  - specialize (H (Class.year a) (Class.semester a)).
    simpl in H. rewrite offeredIn_own in H. discriminate.
  - assert (Hb : offeredIn (Class.year a) (Class.semester a) b = true).
    { destruct (offeredIn (Class.year a) (Class.semester a) b) eqn:Hab; [reflexivity|].
      pose proof (H (Class.year a) (Class.semester a)) as Ha.
      pose proof (H (Class.year b) (Class.semester b)) as Hb.
      simpl in Ha, Hb.
      rewrite offeredIn_own in Ha, Hb. rewrite Hab in Ha.
      rewrite <- offeredIn_sym, Hab in Hb.
      rewrite <- Hab. apply offeredIn_tie.
      - eapply sorted_head_first; [exact Hs1 | exact Hb].
      - eapply sorted_head_first; [exact Hs2 | symmetry; exact Ha]. }
    pose proof (H (Class.year a) (Class.semester a)) as Hhead.
    simpl in Hhead. rewrite offeredIn_own, Hb in Hhead.
    injection Hhead as <- _.
    f_equal. apply IH.
    + apply StronglySorted_inv in Hs1. tauto.
    + apply StronglySorted_inv in Hs2. tauto.
    + intros y s. specialize (H y s). simpl in H.
      destruct (offeredIn y s a); [injection H as H|]; exact H.
Qed.

(** X13. What [sortClassesByPeriod] returns is the only arrangement that is
    in chronological order and keeps the offerings of each period in their
    input order: every list with these two properties is the sorted one. *)
Theorem sortClassesByPeriod_unique :
  forall classes arranged : list Class.t,
    StronglySorted (fun a b => comparePeriod a b <= 0) arranged ->
    (forall y s,
       List.filter (offeredIn y s) arranged = List.filter (offeredIn y s) classes) ->
    arranged = sortClassesByPeriod classes.
Proof.
  intros classes arranged Hs Hst.
  apply sorted_stable_unique; [exact Hs | apply sortClassesByPeriod_sorted|].
  intros y s. rewrite Hst, sortClassesByPeriod_stable. reflexivity.
Qed.

Lemma sortClassesByPeriod_unique_witness :
  [ Class.mk "Math" 2023 1 (Some []);
    Class.mk "Math" 2023 2 None ]
  = sortClassesByPeriod
      [ Class.mk "Math" 2023 2 None;
        Class.mk "Math" 2023 1 (Some []) ].
Proof.
  apply sortClassesByPeriod_unique.
  - repeat constructor; vm_compute; discriminate.
  - intros y s. unfold offeredIn.
    cbn [List.filter Class.year Class.semester].
    destruct (2023 =? y); cbn [andb]; [|reflexivity].
    destruct (1 =? s) eqn:H1, (2 =? s) eqn:H2; try reflexivity.
    apply Z.eqb_eq in H1, H2. lia.
Defined.

End SortUnique.

(** ** What a chart record keeps *)

Section ChartFurther.

(** X14. A chart record is determined by the period label and the five
    outcome counters of its entry, and by nothing else: two entries give the
    same record exactly when they agree on these six values, whatever their
    discipline, year, semester and [totalStudents]. *)
Theorem toChartDataPoint_determined :
  forall a b : AnalyticsData.t,
    toChartDataPoint a = toChartDataPoint b
    <-> AnalyticsData.periodLabel a = AnalyticsData.periodLabel b
        /\ approvedByAverage (AnalyticsData.statistics a)
           = approvedByAverage (AnalyticsData.statistics b)
        /\ approvedByGrade (AnalyticsData.statistics a)
           = approvedByGrade (AnalyticsData.statistics b)
        /\ failedByGrade (AnalyticsData.statistics a)
           = failedByGrade (AnalyticsData.statistics b)
        /\ failedByAverage (AnalyticsData.statistics a)
           = failedByAverage (AnalyticsData.statistics b)
        /\ failedByAttendance (AnalyticsData.statistics a)
           = failedByAttendance (AnalyticsData.statistics b).
Proof.
  intros a b. unfold toChartDataPoint. split.
  - intros [= -> -> -> -> -> ->]. repeat split.
  - intros (-> & -> & -> & -> & -> & ->). reflexivity.
Qed.

End ChartFurther.
